(** * The Ableton HTTP wrapper ([http_wrapper.py]): model and properties

    A shallow embedding of the request handler class [AbletonHandler] and of
    [main], with the properties of its request translation: validation,
    resolution of a device name to a browser address, the single forwarded
    command, and the encoded response.

    Effects are explicit.  A computation of the handler is a function from
    the state of the process (the connection objects constructed so far, the
    log of observable events, the responses written) to an outcome and a new
    state; the outcome is a value or a raised Python exception. *)

From Stdlib Require Import ZArith String Ascii List.
From Stdlib Require Import Floats.SpecFloat.
From stdpp Require Import base option list gmap strings.

Set Warnings "-register-all".
Local Open Scope string_scope.
Local Open Scope Z_scope.

(** ** Python values

    The values [json.loads] produces and [json.dumps] accepts.  A [str] is
    kept as the bytes of its UTF-8 encoding: emptiness and the replacement of
    the space character are the same on both views, since the byte 0x20 occurs
    in UTF-8 only as the space character.  A [float] is an IEEE-754 binary64
    number, in the Standard Library's specification format.  The keys of a
    [dict] decoded from JSON are strings. *)

Inductive pyval : Type :=
| PNone
| PBool (b : bool)
| PInt (n : Z)
| PFloat (x : spec_float)
| PStr (s : string)
| PList (l : list pyval)
| PDict (d : gmap string pyval).

(** [type(v).__name__] *)
Definition type_name (v : pyval) : string :=
  match v with
  | PNone => "NoneType"
  | PBool _ => "bool"
  | PInt _ => "int"
  | PFloat _ => "float"
  | PStr _ => "str"
  | PList _ => "list"
  | PDict _ => "dict"
  end.

(** [v is None] *)
Definition is_None (v : pyval) : bool :=
  match v with PNone => true | _ => false end.

(** [bool(v)]: the truth value tested by [not v]. *)
Definition truthy (v : pyval) : bool :=
  match v with
  | PNone => false
  | PBool b => b
  | PInt n => negb (n =? 0)
  | PFloat (S754_zero _) => false
  | PFloat _ => true
  | PStr EmptyString => false
  | PStr (String _ _) => true
  | PList [] => false
  | PList (_ :: _) => true
  | PDict d => match map_to_list d with [] => false | _ :: _ => true end
  end.

(** [s.replace(old, new)] for a pattern [old] of one character: every
    occurrence is replaced, left to right. *)
Fixpoint str_replace (old : ascii) (new : string) (s : string) : string :=
  match s with
  | EmptyString => EmptyString
  | String c rest =>
      if Ascii.eqb c old
      then new ++ str_replace old new rest
      else String c (str_replace old new rest)
  end.

(** ** Exceptions

    Every exception of the model is an instance of [Exception]; [exc_str] is
    what [str(e)] returns. *)

Record PyExc : Type := Raised { exc_type : string; exc_str : string }.

Definition ValueError (msg : string) : PyExc := Raised "ValueError" msg.
Definition TypeError (msg : string) : PyExc := Raised "TypeError" msg.

(** The error of an attribute lookup that fails: [obj.attr] where [obj] has
    no attribute [attr]. *)
Definition AttributeError (obj : pyval) (attr : string) : PyExc :=
  Raised "AttributeError"
    ("'" ++ type_name obj ++ "' object has no attribute '" ++ attr ++ "'").

(** ** The Connection Handle

    [AbletonConnection] is imported from [MCP_Server/server.py]; the wrapper
    uses its constructor and its method [send_command] only.  Both are taken
    as an interface: [conn] is the state of one connection object,
    [send_command] returns the decoded result or raises, and may change the
    object. *)

Class AbletonConnection : Type := {
  conn : Type;
  conn_new : string -> Z -> conn;
  conn_send_command :
    conn -> string -> gmap string pyval -> (PyExc + pyval) * conn
}.

(** ** Responses and events *)

(** One response on the wire: the status given to [send_response], the
    header lines added by [send_header] in order, and the document written to
    [wfile] ([None] when nothing is written).  The body is identified with
    the value [json.dumps] serialises.  The [Server] and [Date] lines that
    the library's [send_response] adds by itself are not represented. *)
Record Response : Type := mkResponse {
  status : Z;
  headers : list (string * string);
  headers_ended : bool;
  body : option pyval
}.

Inductive LogLevel : Type := INFO | ERROR.

(** The observable events besides the responses.  A log record keeps the
    text of its format string and the values interpolated into it, a value
    standing for its text. *)
Inductive Event : Type :=
| EvConstruct (ref : nat) (host : string) (port : Z)
| EvSend (ref : nat) (name : string) (args : gmap string pyval)
| EvLog (level : LogLevel) (fmt : string) (fields : list pyval).

(** The commands for which the class defines a method; the library answers
    a request of any other command itself, without calling the class. *)
Inductive Method : Type := GET | POST | OPTIONS.

(** A request as the handler sees it: the method, [self.path], and the
    outcome of lines 37-39 of [do_POST] (reading [Content-Length] bytes and
    decoding them with [json.loads]), which is the decoded value or the
    exception raised there. *)
Record Request : Type := mkRequest {
  command : Method;
  requestline : string;
  path : string;
  decoded : PyExc + pyval
}.

(** The fields of a handler object that the class uses: [self.ableton] is a
    reference to a connection object, the index of its cell in the store. *)
Record AbletonHandler : Type := mkHandler {
  ableton : nat;
  request : Request
}.

Section Wrapper.

Context `{AC : AbletonConnection}.

(** The state of the process. *)
Record World : Type := mkWorld {
  heap : list conn;
  trace : list Event;
  wire : list Response
}.

(** A computation that may raise. *)
Definition M (A : Type) : Type := World -> (PyExc + A) * World.

#[export] Instance M_ret : MRet M := fun A (x : A) w => (inr x, w).

#[export] Instance M_bind : MBind M := fun A B (f : A -> M B) (m : M A) w =>
  match m w with
  | (inr x, w') => f x w'
  | (inl e, w') => (inl e, w')
  end.

#[export] Instance M_throw : MThrow PyExc M := fun A (e : PyExc) w => (inl e, w).

(** [try: body except Exception as e: handler(e)] *)
Definition try_except {A : Type} (body : M A) (handler : PyExc -> M A) : M A :=
  fun w =>
    match body w with
    | (inr x, w') => (inr x, w')
    | (inl e, w') => handler e w'
    end.

(** The outcome of an operation that is performed outside the model. *)
Definition outcome {A : Type} (r : PyExc + A) : M A := fun w => (r, w).

Definition emit (ev : Event) : M unit :=
  fun w => (inr tt, mkWorld (heap w) (trace w ++ [ev]) (wire w)).

Definition logger_info (fmt : string) (fields : list pyval) : M unit :=
  emit (EvLog INFO fmt fields).

Definition logger_error (fmt : string) (fields : list pyval) : M unit :=
  emit (EvLog ERROR fmt fields).

(** *** The connection objects *)

(** [AbletonConnection(host=..., port=...)]: a new object in a new cell. *)
Definition new_AbletonConnection (host : string) (port : Z) : M nat :=
  fun w =>
    let ref := length (heap w) in
    (inr ref,
     mkWorld (heap w ++ [conn_new host port])
             (trace w ++ [EvConstruct ref host port])
             (wire w)).

(** [obj.send_command(name, args)] on the object that [ref] points to.  The
    call is recorded, the object takes its new state, and the result or the
    exception of the call is the outcome.  A reference held by a handler
    always points to a cell (see [AbletonHandler_init]); the other case is
    there to make the function total. *)
Definition send_command (ref : nat) (name : string)
    (args : gmap string pyval) : M pyval :=
  fun w =>
    match heap w !! ref with
    | Some c =>
        let '(r, c') := conn_send_command c name args in
        (r, mkWorld (<[ref := c']> (heap w))
                    (trace w ++ [EvSend ref name args])
                    (wire w))
    | None => (inl (Raised "ReferenceError" "no such object"), w)
    end.

(** *** Writing a response

    [wire] holds the responses written so far, the most recent one first.
    [send_response] starts a response; [send_header], [end_headers] and
    [wfile.write] extend the one in progress. *)

Definition on_current (f : Response -> Response) : M unit :=
  fun w =>
    match wire w with
    | r :: rest => (inr tt, mkWorld (heap w) (trace w) (f r :: rest))
    | [] => (inr tt, w)
    end.

Definition start_response (code : Z) : M unit :=
  fun w =>
    (inr tt,
     mkWorld (heap w) (trace w) (mkResponse code [] false None :: wire w)).

(** [log_message], lines 98-100: the library's logging hook handed to the
    module's logger. *)
Definition log_message (fmt : string) (args : list pyval) : M unit :=
  logger_info fmt args.

(** The format of the library's access log line: the request line between
    double quotes (character 34), the status and the size. *)
Definition access_log_format : string :=
  let quote := String (ascii_of_nat 34) EmptyString in
  (quote ++ "%s" ++ quote ++ " %s %s")%string.

(** The library's [send_response(code)]: it logs the request through
    [log_message] and starts the response. *)
Definition send_response (self : AbletonHandler) (code : Z) : M unit :=
  log_message access_log_format
    [PStr (requestline (request self)); PInt code; PStr "-"] ;;
  start_response code.

Definition send_header (keyword value : string) : M unit :=
  on_current (fun r =>
    mkResponse (status r) (headers r ++ [(keyword, value)])
               (headers_ended r) (body r)).

Definition end_headers : M unit :=
  on_current (fun r => mkResponse (status r) (headers r) true (body r)).

(** [self.wfile.write(json.dumps(data).encode('utf-8'))] *)
Definition wfile_write_json (data : pyval) : M unit :=
  on_current (fun r =>
    mkResponse (status r) (headers r) (headers_ended r) (Some data)).

(** *** The methods of [AbletonHandler] *)

(** Lines 80-88. *)
Definition send_json_response (self : AbletonHandler) (status_code : Z)
    (data : pyval) : M unit :=
  send_response self status_code ;;
  send_header "Content-type" "application/json" ;;
  send_header "Access-Control-Allow-Origin" "*" ;;
  send_header "Access-Control-Allow-Methods" "GET, POST, OPTIONS" ;;
  send_header "Access-Control-Allow-Headers" "Content-Type" ;;
  end_headers ;;
  wfile_write_json data.

(** Lines 90-96. *)
Definition do_OPTIONS (self : AbletonHandler) : M unit :=
  send_response self 200 ;;
  send_header "Access-Control-Allow-Origin" "*" ;;
  send_header "Access-Control-Allow-Methods" "GET, POST, OPTIONS" ;;
  send_header "Access-Control-Allow-Headers" "Content-Type" ;;
  end_headers.

(** Lines 27-32. *)
Definition do_GET (self : AbletonHandler) : M unit :=
  if decide (path (request self) = "/health")
  then send_json_response self 200 (PDict {[ "status" := PStr "ok" ]})
  else send_json_response self 404
         (PDict {[ "error" := PStr "Endpoint not found" ]}).

(** [data.get(key, default)]: defined on a [dict] only. *)
Definition data_get (data : pyval) (key : string) (default : pyval) : M pyval :=
  match data with
  | PDict d => mret (from_option id default (d !! key))
  | _ => mthrow (AttributeError data "get")
  end.

(** The table of lines 61-66. *)
Definition device_uris : gmap string string :=
  {[ "EQ Eight" := "query:Audio%20Effects#Ableton#EQ%20Eight";
     "Compressor" := "query:Audio%20Effects#Ableton#Compressor";
     "Reverb" := "query:Audio%20Effects#Ableton#Reverb";
     "Delay" := "query:Audio%20Effects#Ableton#Delay" ]}%string.

(** [device_uris.get(device_name)], line 68.  The key is hashed first, which
    a [list] and a [dict] refuse; a key that is not a [str] equals none of the
    table's keys. *)
Definition device_uris_get (device_name : pyval) : M (option string) :=
  match device_name with
  | PStr s => mret (device_uris !! s)
  | PList _ | PDict _ =>
      mthrow (TypeError ("unhashable type: '" ++ type_name device_name ++ "'"))
  | _ => mret None
  end.

(** [device_name.replace(" ", "%20")], defined on a [str] only. *)
Definition replace_spaces (device_name : pyval) : M string :=
  match device_name with
  | PStr s => mret (str_replace " " "%20" s)
  | _ => mthrow (AttributeError device_name "replace")
  end.

(** Lines 68-71: the address of a device name. *)
Definition resolve (device_name : pyval) : M string :=
  device_uri ← device_uris_get device_name;
  match device_uri with
  | Some (String c u) => mret (String c u)
  | Some EmptyString | None =>
      encoded ← replace_spaces device_name;
      mret ("query:Audio%20Effects#Ableton#" ++ encoded)
  end.

(** The dictionary of lines 75-78, the arguments of the command. *)
Definition load_browser_item_args (track_index : pyval) (device_uri : string)
    : gmap string pyval :=
  {[ "track_index" := track_index; "item_uri" := PStr device_uri ]}.

(** Lines 51-78. *)
Definition add_device (self : AbletonHandler) (data : pyval) : M pyval :=
  track_index ← data_get data "track_index" PNone;
  device_name ← data_get data "device_name" PNone;
  category ← data_get data "category" (PStr "audio_effects");
  if is_None track_index || negb (truthy device_name)
  then mthrow (ValueError "track_index and device_name required")
  else
    device_uri ← resolve device_name;
    logger_info
      "Loading device {device_name} with URI {device_uri} on track {track_index}"
      [device_name; PStr device_uri; track_index] ;;
    send_command (ableton self) "load_browser_item"
      (load_browser_item_args track_index device_uri).

(** Lines 34-49. *)
Definition do_POST (self : AbletonHandler) : M unit :=
  try_except
    (data ← outcome (decoded (request self));
     if decide (path (request self) = "/add_device")
     then
       result ← add_device self data;
       send_json_response self 200
         (PDict {[ "success" := PBool true; "result" := result ]})
     else
       send_json_response self 404
         (PDict {[ "error" := PStr "Endpoint not found" ]}))
    (fun e =>
       logger_error "Request failed: {str(e)}" [PStr (exc_str e)] ;;
       send_json_response self 500 (PDict {[ "error" := PStr (exc_str e) ]})).

(** *** The server *)

(** The library's handling of one request by a handler object: the method
    named after the request's command is called. *)
Definition handle_one_request (self : AbletonHandler) : M unit :=
  match command (request self) with
  | GET => do_GET self
  | POST => do_POST self
  | OPTIONS => do_OPTIONS self
  end.

(** Lines 23-25: the constructor, which the server calls once for each
    request it accepts.  The base class's constructor handles the request. *)
Definition AbletonHandler_init (req : Request) : M unit :=
  ref ← new_AbletonConnection "localhost" 9877;
  handle_one_request (mkHandler ref req).

(** The library's [serve_forever] on the requests that arrive before the
    process is interrupted, in their order.  An exception that leaves a
    handler is reported by the server, which goes on. *)
Fixpoint serve_forever (reqs : list Request) : M unit :=
  match reqs with
  | [] => mret tt
  | req :: rest =>
      try_except (AbletonHandler_init req) (fun _ => mret tt) ;;
      serve_forever rest
  end.

(** Lines 102-117.  [listen] is the outcome of constructing the [HTTPServer]
    on port 8080. *)
Definition main (listen : PyExc + unit) (reqs : list Request) : M unit :=
  try_except
    (outcome listen ;;
     logger_info "Ableton HTTP wrapper starting on http://localhost:{port}"
       [PInt 8080] ;;
     logger_info "Available endpoints:" [] ;;
     logger_info "  GET  /health - Health check" [] ;;
     logger_info "  POST /add_device - Add device to track" [] ;;
     serve_forever reqs ;;
     logger_info "Server stopped" [])
    (fun e => logger_error "Server error: {str(e)}" [PStr (exc_str e)]).

(** ** Observations *)

(** The commands sent in a trace: the object, the name and the arguments of
    each call of [send_command], in order. *)
Definition sends (t : list Event) : list (nat * string * gmap string pyval) :=
  omap (fun ev =>
          match ev with
          | EvSend ref name args => Some (ref, name, args)
          | _ => None
          end) t.

(** The connection objects constructed in a trace, in order. *)
Definition constructed (t : list Event) : list nat :=
  omap (fun ev =>
          match ev with
          | EvConstruct ref _ _ => Some ref
          | _ => None
          end) t.

(** The header lines of [send_json_response] and of [do_OPTIONS]. *)
Definition cors_headers : list (string * string) :=
  [("Access-Control-Allow-Origin", "*");
   ("Access-Control-Allow-Methods", "GET, POST, OPTIONS");
   ("Access-Control-Allow-Headers", "Content-Type")]%string.

Definition json_headers : list (string * string) :=
  (("Content-type", "application/json") :: cors_headers)%string.

(** The response that [send_json_response status_code data] writes. *)
Definition json_response (status_code : Z) (data : pyval) : Response :=
  mkResponse status_code json_headers true (Some data).

(** Header names are compared without regard to the case of ASCII letters,
    as HTTP does; values are compared as they are. *)
Definition ascii_lower (c : ascii) : ascii :=
  let n := nat_of_ascii c in
  if ((65 <=? n)%nat && (n <=? 90)%nat)%bool then ascii_of_nat (n + 32) else c.

Fixpoint str_lower (s : string) : string :=
  match s with
  | EmptyString => EmptyString
  | String c rest => String (ascii_lower c) (str_lower rest)
  end.

Definition has_header (name value : string) (r : Response) : bool :=
  existsb (fun kv => String.eqb (str_lower kv.1) (str_lower name)
                     && String.eqb kv.2 value)%bool
          (headers r).

Definition has_cors_headers (r : Response) : bool :=
  (has_header "Access-Control-Allow-Origin" "*" r
   && has_header "Access-Control-Allow-Methods" "GET, POST, OPTIONS" r
   && has_header "Access-Control-Allow-Headers" "Content-Type" r)%bool.

(** The response that [do_POST] writes for the outcome of [add_device]. *)
Definition encode (r : PyExc + pyval) : Response :=
  match r with
  | inr result =>
      json_response 200 (PDict {[ "success" := PBool true; "result" := result ]})
  | inl e => json_response 500 (PDict {[ "error" := PStr (exc_str e) ]})
  end.

(** The log records that [do_POST] writes for the outcome of [add_device]:
    the error, if any, and the access log line of the response. *)
Definition encode_log (rl : string) (r : PyExc + pyval) : list Event :=
  match r with
  | inr _ => [EvLog INFO access_log_format [PStr rl; PInt 200; PStr "-"]]
  | inl e =>
      [EvLog ERROR "Request failed: {str(e)}" [PStr (exc_str e)];
       EvLog INFO access_log_format [PStr rl; PInt 500; PStr "-"]]
  end.

(** The headers that the specification gives to every response. *)
Definition has_json_and_cors_headers (r : Response) : bool :=
  (has_header "Content-Type" "application/json" r && has_cors_headers r)%bool.

(** One connection object for the whole trace, as the specification has it:
    one object is constructed, and every command is sent on it. *)
Definition single_connection (t : list Event) : Prop :=
  exists ref, constructed t = [ref] /\ Forall (fun x => x.1.1 = ref) (sends t).

(** A request is rejected before any remote call: no command is sent and
    one response, of status 500, is written. *)
Definition rejected_before_send (w w' : World) : Prop :=
  sends (trace w') = sends (trace w) /\
  exists r, wire w' = r :: wire w /\ status r = 500.

(** What a handler that holds the connection object [ref] does to the
    process between [w] and [w']: it constructs no object, and what it adds
    to the trace has commands sent on [ref] only. *)
Definition handled_with (ref : nat) (w w' : World) : Prop :=
  length (heap w') = length (heap w) /\
  exists evs,
    trace w' = (trace w ++ evs)%list /\
    constructed evs = [] /\
    Forall (fun x => x.1.1 = ref) (sends evs).

(** The state of the process after the server has handled one request. *)
Definition after_request (req : Request) (w : World) : World :=
  (AbletonHandler_init req w).2.

(** A POST request to [/add_device] whose body decodes to the object [d]. *)
Definition post_add_device (rl : string) (d : gmap string pyval) : Request :=
  mkRequest POST rl "/add_device" (inr (PDict d)).

End Wrapper.

(** ** The words of the specification *)

(** The single rule of the fallback: the fixed template followed by the
    name with every space replaced by [%20]. *)
Definition fallback_rule (device_name : string) : string :=
  ("query:Audio%20Effects#Ableton#" ++ str_replace " " "%20" device_name)%string.

(** The trimming of surrounding whitespace that the specification speaks of
    (Python's [str.strip] on ASCII whitespace).  The handler never calls it. *)
Definition is_space (c : ascii) : bool :=
  let n := nat_of_ascii c in
  ((n =? 32)%nat || ((9 <=? n)%nat && (n <=? 13)%nat))%bool.

Fixpoint lstrip (l : list ascii) : list ascii :=
  match l with
  | c :: rest => if is_space c then lstrip rest else l
  | [] => []
  end.

Definition strip (s : string) : string :=
  string_of_list_ascii
    (rev (lstrip (rev (lstrip (list_ascii_of_string s))))).

(** ** Connection objects to run the model on *)

(** A connection whose every command has the outcome [r]; the state of the
    object counts the commands it has received. *)
Definition scripted (r : PyExc + pyval) : AbletonConnection :=
  {| conn := nat;
     conn_new := fun _ _ => 0%nat;
     conn_send_command := fun c _ _ => (r, S c) |}.

Definition loaded : pyval := PDict {[ "loaded" := PBool true ]}.

Definition not_connected : PyExc :=
  Raised "ConnectionError" "Not connected to Ableton".

(** A connection whose commands succeed, and one whose commands fail. *)
Definition connected : AbletonConnection := scripted (inr loaded).
Definition disconnected : AbletonConnection := scripted (inl not_connected).

(** The process before any request. *)
Definition started {AC : AbletonConnection} : World := mkWorld [] [] [].

(** ** Requests to run the model on *)

Definition post_line : string := "POST /add_device HTTP/1.1".

(** The two bodies of the specification's example. *)
Definition eq_eight_body : gmap string pyval :=
  {[ "track_index" := PInt 2; "device_name" := PStr "EQ Eight" ]}.

Definition custom_fx_body : gmap string pyval :=
  {[ "track_index" := PInt 0; "device_name" := PStr "My Custom FX" ]}.

(** A body whose [device_name] is one space. *)
Definition blank_name_body : gmap string pyval :=
  {[ "track_index" := PInt 0; "device_name" := PStr " " ]}.

(** A body without [track_index]. *)
Definition no_track_body : gmap string pyval :=
  {[ "device_name" := PStr "Reverb" ]}.

Definition options_request : Request :=
  mkRequest OPTIONS "OPTIONS /add_device HTTP/1.1" "/add_device"
    (inl (Raised "JSONDecodeError" "Expecting value: line 1 column 1 (char 0)")).

(** ** Further observations *)

(** The events that the step from [w] to [w'] has added to the trace. *)
Definition new_events {AC : AbletonConnection} (w w' : World) : list Event :=
  drop (length (trace w)) (trace w').

(** The messages of the records logged at level ERROR, in order. *)
Definition errors_logged (t : list Event) : list (list pyval) :=
  omap (fun ev =>
          match ev with
          | EvLog ERROR _ fields => Some fields
          | _ => None
          end) t.

(** The records that [log_message] has logged: the fields of the INFO
    records whose format is the access log format. *)
Definition access_logged (t : list Event) : list (list pyval) :=
  omap (fun ev =>
          match ev with
          | EvLog INFO fmt fields =>
              if decide (fmt = access_log_format) then Some fields else None
          | _ => None
          end) t.

(** The payload of the responses of status 404. *)
Definition not_found : pyval :=
  PDict {[ "error" := PStr "Endpoint not found" ]}.

(** The payload [{"error": message}]. *)
Definition error_payload (message : string) : pyval :=
  PDict {[ "error" := PStr message ]}.

(** The message of the validation error of line 58. *)
Definition fields_required : string := "track_index and device_name required".

(** Whether the space character occurs in a string. *)
Definition has_space (s : string) : bool :=
  existsb (Ascii.eqb " ") (list_ascii_of_string s).

(** Whether a value is a [str]. *)
Definition is_str (v : pyval) : bool :=
  match v with PStr _ => true | _ => false end.

(** The message of the error that the resolution of a name that is not a
    [str] raises: a [list] or a [dict] cannot be hashed for the lookup in the
    table, any other value has no method [replace]. *)
Definition not_str_message (v : pyval) : string :=
  match v with
  | PList _ | PDict _ => "unhashable type: '" ++ type_name v ++ "'"
  | _ => "'" ++ type_name v ++ "' object has no attribute 'replace'"
  end.

(** ** Properties *)

Section Properties.
Context `{AC : AbletonConnection}.
Implicit Types (w : World) (self : AbletonHandler) (d : gmap string pyval).

Lemma send_json_response_run self status_code data w :
  send_json_response self status_code data w =
    (inr tt,
     mkWorld (heap w)
       (trace w ++ [EvLog INFO access_log_format
                      [PStr (requestline (request self)); PInt status_code; PStr "-"]])
       (json_response status_code data :: wire w)).
Proof. reflexivity. Qed.

Lemma do_OPTIONS_run self w :
  do_OPTIONS self w =
    (inr tt,
     mkWorld (heap w)
       (trace w ++ [EvLog INFO access_log_format
                      [PStr (requestline (request self)); PInt 200; PStr "-"]])
       (mkResponse 200 cors_headers true None :: wire w)).
Proof. reflexivity. Qed.

Lemma device_uris_lookup_Some (s u : string) :
  device_uris !! s = Some u -> u = fallback_rule s /\ u <> EmptyString.
Proof.
  unfold device_uris.
  rewrite !lookup_insert_Some, lookup_singleton_Some.
  intros H.
  repeat match goal with
         | H : _ \/ _ |- _ => destruct H
         | H : _ /\ _ |- _ => destruct H
         end; subst; (split; [reflexivity | discriminate]).
Qed.

Lemma resolve_str (s : string) w :
  resolve (PStr s) w = (inr (fallback_rule s), w).
Proof.
  unfold resolve. cbn.
  destruct (device_uris !! s) as [u|] eqn:E; [|reflexivity].
  apply device_uris_lookup_Some in E as [-> Hne].
  destruct (fallback_rule s) eqn:F; [done|reflexivity].
Qed.

Lemma fresh_lookup (l : list conn) (c : conn) :
  (l ++ [c])%list !! length l = Some c.
Proof. by apply list_lookup_middle. Qed.

Lemma fresh_insert (l : list conn) (c c' : conn) :
  <[length l := c']> (l ++ [c])%list = (l ++ [c'])%list.
Proof.
  replace (length l) with (length l + 0)%nat by lia.
  by rewrite insert_app_r.
Qed.

(** Unfolding of the monad's operations at a given state. *)
Ltac run := unfold mbind, mret, mthrow, M_bind, M_ret, M_throw; cbn.

#[local] Arguments resolve : simpl never.
#[local] Arguments fallback_rule : simpl never.
#[local] Arguments load_browser_item_args : simpl never.
#[local] Arguments send_json_response : simpl never.

Lemma add_device_valid self d ti s c w :
  d !! "track_index" = Some ti -> ti <> PNone ->
  d !! "device_name" = Some (PStr s) -> s <> EmptyString ->
  heap w !! ableton self = Some c ->
  let args := load_browser_item_args ti (fallback_rule s) in
  let rc := conn_send_command c "load_browser_item" args in
  add_device self (PDict d) w =
    (rc.1,
     mkWorld (<[ableton self := rc.2]> (heap w))
       (trace w ++
          [EvLog INFO
             "Loading device {device_name} with URI {device_uri} on track {track_index}"
             [PStr s; PStr (fallback_rule s); ti];
           EvSend (ableton self) "load_browser_item" args])
       (wire w)).
Proof.
  intros Hti Hnn Hdn Hne Hc args rc. unfold add_device. cbn.
  rewrite Hti, Hdn.
  destruct s as [|a s']; [done|]. destruct ti; try done.
  all: run; rewrite resolve_str; run.
  all: unfold send_command; cbn; rewrite Hc.
  all: fold args; fold rc; destruct rc; cbn; by rewrite <- app_assoc.
Qed.

#[local] Arguments add_device : simpl never.
#[local] Arguments do_POST : simpl never.

Lemma do_POST_add_device_run self d r w1 w :
  path (request self) = "/add_device" ->
  decoded (request self) = inr (PDict d) ->
  add_device self (PDict d) w = (r, w1) ->
  do_POST self w =
    (inr tt,
     mkWorld (heap w1)
       (trace w1 ++ encode_log (requestline (request self)) r)
       (encode r :: wire w1)).
Proof.
  intros Hp Hd Hr. unfold do_POST, try_except. rewrite Hp, Hd.
  run. case_decide; [|done]. rewrite Hr.
  destruct r as [e|v]; run; rewrite send_json_response_run; cbn;
    by rewrite <- ?app_assoc.
Qed.

Lemma post_valid_run rl d ti s w :
  d !! "track_index" = Some ti -> ti <> PNone ->
  d !! "device_name" = Some (PStr s) -> s <> EmptyString ->
  let ref := length (heap w) in
  let args := load_browser_item_args ti (fallback_rule s) in
  let rc := conn_send_command (conn_new "localhost" 9877)
              "load_browser_item" args in
  AbletonHandler_init (post_add_device rl d) w =
    (inr tt,
     mkWorld (heap w ++ [rc.2])
       (trace w ++
          EvConstruct ref "localhost" 9877
          :: EvLog INFO
               "Loading device {device_name} with URI {device_uri} on track {track_index}"
               [PStr s; PStr (fallback_rule s); ti]
          :: EvSend ref "load_browser_item" args
          :: encode_log rl rc.1)
       (encode rc.1 :: wire w)).
Proof.
  intros Hti Hnn Hdn Hne ref args rc.
  unfold AbletonHandler_init, new_AbletonConnection. run.
  erewrite do_POST_add_device_run; [|done|done|].
  2: { eapply add_device_valid; [done..|]. cbn. apply fresh_lookup. }
  cbn. rewrite fresh_insert. fold ref args rc.
  by rewrite <- !app_assoc.
Qed.

Lemma sends_app (t1 t2 : list Event) :
  sends (t1 ++ t2) = (sends t1 ++ sends t2)%list.
Proof. apply omap_app. Qed.

Lemma constructed_app (t1 t2 : list Event) :
  constructed (t1 ++ t2) = (constructed t1 ++ constructed t2)%list.
Proof. apply omap_app. Qed.

Lemma sends_encode_log rl r : sends (encode_log rl r) = [].
Proof. by destruct r. Qed.

(** The observable part of [post_valid_run]. *)
Lemma post_valid_observed rl d ti s w :
  d !! "track_index" = Some ti -> ti <> PNone ->
  d !! "device_name" = Some (PStr s) -> s <> EmptyString ->
  let args := load_browser_item_args ti (fallback_rule s) in
  let rc := conn_send_command (conn_new "localhost" 9877)
              "load_browser_item" args in
  let w' := after_request (post_add_device rl d) w in
  sends (trace w') =
    (sends (trace w) ++ [(length (heap w), "load_browser_item", args)])%list /\
  wire w' = encode rc.1 :: wire w.
Proof.
  intros Hti Hnn Hdn Hne args rc w'. subst w'. unfold after_request.
  rewrite (post_valid_run rl d ti s w) by done. cbn. split; [|done].
  rewrite sends_app. cbn. by rewrite sends_encode_log.
Qed.

(** C1.  A POST to [/add_device] whose body has a [track_index] that is not
    null and a [device_name] that is a non-empty string sends exactly one
    command, on the handler's connection object: its name is
    [load_browser_item] and its arguments are exactly the given
    [track_index] and, as [item_uri], the address that [resolve] returns.
    When that call returns [v], the response written has status 200 and the
    payload [{success: true, result: v}], with [v] as it was returned. *)
Theorem add_device_forwards_once rl d ti s w :
  d !! "track_index" = Some ti -> ti <> PNone ->
  d !! "device_name" = Some (PStr s) -> s <> EmptyString ->
  exists device_uri,
    resolve (PStr s) w = (inr device_uri, w) /\
    let args : gmap string pyval :=
      {[ "track_index" := ti; "item_uri" := PStr device_uri ]} in
    let w' := after_request (post_add_device rl d) w in
    sends (trace w') =
      (sends (trace w) ++ [(length (heap w), "load_browser_item", args)])%list /\
    forall v c',
      conn_send_command (conn_new "localhost" 9877) "load_browser_item" args
        = (inr v, c') ->
      wire w' =
        json_response 200
          (PDict {[ "success" := PBool true; "result" := v ]}) :: wire w.
Proof.
  intros Hti Hnn Hdn Hne. exists (fallback_rule s).
  split; [apply resolve_str|].
  destruct (post_valid_observed rl d ti s w) as [Hs Hw]; [done..|].
  cbv zeta. split; [exact Hs|].
  intros v c' Hv. rewrite Hw. unfold load_browser_item_args. by rewrite Hv.
Qed.

(** C4.  When the one call of [send_command] of a valid POST to
    [/add_device] raises an error of message [m], the response written has
    status 500 and the payload [{error: m}], and that call is the only
    command sent: there is no second attempt. *)
Theorem add_device_remote_error_no_retry rl d ti s w :
  d !! "track_index" = Some ti -> ti <> PNone ->
  d !! "device_name" = Some (PStr s) -> s <> EmptyString ->
  exists device_uri,
    resolve (PStr s) w = (inr device_uri, w) /\
    let args : gmap string pyval :=
      {[ "track_index" := ti; "item_uri" := PStr device_uri ]} in
    let w' := after_request (post_add_device rl d) w in
    forall e c',
      conn_send_command (conn_new "localhost" 9877) "load_browser_item" args
        = (inl e, c') ->
      wire w' =
        json_response 500 (PDict {[ "error" := PStr (exc_str e) ]}) :: wire w /\
      sends (trace w') =
        (sends (trace w) ++ [(length (heap w), "load_browser_item", args)])%list.
Proof.
  intros Hti Hnn Hdn Hne. exists (fallback_rule s).
  split; [apply resolve_str|].
  destruct (post_valid_observed rl d ti s w) as [Hs Hw]; [done..|].
  cbv zeta. intros e c' He. split; [|exact Hs].
  rewrite Hw. unfold load_browser_item_args. by rewrite He.
Qed.

(** C9.  The validation of [track_index] tests only that it is not [None]:
    any other value, the integer 0, a string or a boolean among them, passes
    and is the [track_index] argument of the command sent, unchanged. *)
Theorem track_index_forwarded_unchecked rl d ti s w :
  d !! "track_index" = Some ti -> ti <> PNone ->
  d !! "device_name" = Some (PStr s) -> s <> EmptyString ->
  exists args,
    sends (trace (after_request (post_add_device rl d) w)) =
      (sends (trace w) ++ [(length (heap w), "load_browser_item", args)])%list /\
    args !! "track_index" = Some ti.
Proof.
  intros Hti Hnn Hdn Hne.
  destruct (post_valid_observed rl d ti s w) as [Hs _]; [done..|].
  eexists; split; [exact Hs|].
  unfold load_browser_item_args. by rewrite lookup_insert_eq.
Qed.

Lemma add_device_invalid self d w :
  is_None (default PNone (d !! "track_index"))
  || negb (truthy (default PNone (d !! "device_name"))) = true ->
  add_device self (PDict d) w =
    (inl (ValueError "track_index and device_name required"), w).
Proof.
  intros H. unfold add_device. cbn [data_get]. run.
  by rewrite H.
Qed.

Lemma post_invalid_run rl d w :
  is_None (default PNone (d !! "track_index"))
  || negb (truthy (default PNone (d !! "device_name"))) = true ->
  let e := ValueError "track_index and device_name required" in
  AbletonHandler_init (post_add_device rl d) w =
    (inr tt,
     mkWorld (heap w ++ [conn_new "localhost" 9877])
       (trace w ++
          EvConstruct (length (heap w)) "localhost" 9877
          :: encode_log rl (inl e))
       (encode (inl e) :: wire w)).
Proof.
  intros H e. unfold AbletonHandler_init, new_AbletonConnection. run.
  erewrite do_POST_add_device_run; [|done|done|by apply add_device_invalid].
  cbn. by rewrite <- !app_assoc.
Qed.

(** C2, as the code has it.  A POST to [/add_device] whose body has no
    [track_index] or a null one, or no [device_name] or the empty string as
    [device_name] (the name is tested as it is, nothing is trimmed), is
    rejected before any remote call: no command is sent, and the response
    has status 500 with the validation message as its error. *)
Theorem add_device_rejects_missing_fields rl d w :
  d !! "track_index" = None \/ d !! "track_index" = Some PNone \/
  d !! "device_name" = None \/ d !! "device_name" = Some (PStr EmptyString) ->
  let w' := after_request (post_add_device rl d) w in
  rejected_before_send w w' /\
  wire w' =
    json_response 500
      (PDict {[ "error" := PStr "track_index and device_name required" ]})
    :: wire w.
Proof.
  intros H w'. subst w'. unfold after_request, rejected_before_send.
  rewrite post_invalid_run.
  - cbn. rewrite sends_app. cbn. rewrite app_nil_r.
    split; [split; [done|by eexists]|done].
  - destruct H as [-> | [-> | [-> | ->]]]; cbn; by rewrite ?orb_true_r.
Qed.

Lemma add_device_ext self d1 d2 w :
  d1 !! "track_index" = d2 !! "track_index" ->
  d1 !! "device_name" = d2 !! "device_name" ->
  add_device self (PDict d1) w = add_device self (PDict d2) w.
Proof.
  intros H1 H2. unfold add_device. cbn [data_get]. run.
  by rewrite H1, H2.
Qed.

(** C6.  Two POST bodies to [/add_device] that differ in the [category]
    field only (any value, or none) lead, from the same state of the process
    and with the same connection behaviour, to the same outcome and the same
    state: the same command sent, the same response and the same log. *)
Theorem category_is_ignored rl d1 d2 w :
  (forall k : string, k <> "category" -> d1 !! k = d2 !! k) ->
  AbletonHandler_init (post_add_device rl d1) w =
  AbletonHandler_init (post_add_device rl d2) w.
Proof.
  intros H. unfold AbletonHandler_init. run.
  unfold do_POST, try_except. run. case_decide; [|done].
  by rewrite (add_device_ext _ d1 d2) by (by apply H).
Qed.

(** C3.  On a name that is a key of the table, [resolve] returns the
    table's value for it; on any other name it returns the fixed template
    followed by the name with every space replaced by [%20].  So [EQ Eight]
    and [My Custom FX] resolve to the two addresses of the example. *)
Theorem device_name_resolution :
  (forall (s : string) w,
     resolve (PStr s) w =
       (inr match device_uris !! s with
            | Some uri => uri
            | None =>
                ("query:Audio%20Effects#Ableton#" ++ str_replace " " "%20" s)%string
            end, w)) /\
  (forall w,
     resolve (PStr "EQ Eight") w =
       (inr "query:Audio%20Effects#Ableton#EQ%20Eight"%string, w)) /\
  (forall w,
     resolve (PStr "My Custom FX") w =
       (inr "query:Audio%20Effects#Ableton#My%20Custom%20FX"%string, w)).
Proof.
  split; [|split; intros w; by rewrite resolve_str].
  intros s w. rewrite resolve_str.
  destruct (device_uris !! s) as [u|] eqn:E; [|done].
  by apply device_uris_lookup_Some in E as [-> _].
Qed.

(** C8.  On a non-empty name [resolve] does not raise and does not return
    the empty string: its outcome is an address, which is not empty. *)
Theorem resolve_never_fails (s : string) w :
  s <> EmptyString ->
  exists uri, resolve (PStr s) w = (inr uri, w) /\ uri <> EmptyString.
Proof.
  intros _. exists (fallback_rule s). split; [apply resolve_str|done].
Qed.

(** C10.  The table holds, for each of its four keys, the address that the
    fallback rule builds from that key; so [resolve] is, on every name, the
    single rule of the fallback and the table decides nothing. *)
Theorem table_branch_redundant :
  device_uris =
    list_to_map
      ((fun k => (k, fallback_rule k)) <$>
         ["EQ Eight"; "Compressor"; "Reverb"; "Delay"]%string) /\
  (forall (s : string) w, resolve (PStr s) w = (inr (fallback_rule s), w)).
Proof.
  split; [by vm_compute|]. intros s w. apply resolve_str.
Qed.

(** *** What a handler does to the process, on any request *)

Lemma handled_with_refl ref w : handled_with ref w w.
Proof. split; [done|]. exists []. by rewrite app_nil_r. Qed.

Lemma handled_with_trans ref w1 w2 w3 :
  handled_with ref w1 w2 -> handled_with ref w2 w3 -> handled_with ref w1 w3.
Proof.
  intros [Hh1 (evs1 & Ht1 & Hc1 & Hs1)] [Hh2 (evs2 & Ht2 & Hc2 & Hs2)].
  split; [congruence|]. exists (evs1 ++ evs2)%list.
  split; [by rewrite Ht2, Ht1, app_assoc|].
  split; [by rewrite constructed_app, Hc1, Hc2|].
  rewrite sends_app. by apply Forall_app.
Qed.

Lemma handled_with_quiet ref w evs written :
  constructed evs = [] -> sends evs = [] ->
  handled_with ref w (mkWorld (heap w) (trace w ++ evs) written).
Proof.
  intros Hc Hs. split; [done|]. exists evs. rewrite Hs. by repeat split.
Qed.

Lemma handled_with_log ref w level fmt fields written :
  handled_with ref w
    (mkWorld (heap w) (trace w ++ [EvLog level fmt fields]) written).
Proof. by apply handled_with_quiet. Qed.

Lemma resolve_pure (v : pyval) w : (resolve v w).2 = w.
Proof.
  unfold resolve, device_uris_get, replace_spaces.
  destruct v; run; try done.
  destruct (device_uris !! s) as [[|c u]|]; by run.
Qed.

Lemma send_command_effect ref name args w :
  let w' := (send_command ref name args w).2 in
  handled_with ref w w' /\ wire w' = wire w.
Proof.
  unfold send_command.
  destruct (heap w !! ref) as [c|] eqn:E; cbn.
  - destruct (conn_send_command c name args) as [r c']. cbn.
    split; [|done]. split; [cbn; by rewrite length_insert|].
    exists [EvSend ref name args]. repeat split. by repeat constructor.
  - split; [apply handled_with_refl|done].
Qed.

Lemma add_device_effect self data w :
  let w' := (add_device self data w).2 in
  handled_with (ableton self) w w' /\ wire w' = wire w.
Proof.
  pose proof (handled_with_refl (ableton self) w) as Hrefl.
  unfold add_device, data_get. destruct data; run; try done.
  destruct (_ || _); run; [done|].
  pose proof (resolve_pure (default PNone (d !! "device_name")) w) as Hp.
  destruct (resolve _ w) as [[e|uri] w1]; cbn in Hp; subst w1; [done|].
  match goal with
  | |- context [send_command ?r ?n ?a ?w0] =>
      destruct (send_command_effect r n a w0) as [Hh Hw]
  end.
  cbv zeta in Hh, Hw. split; [|by rewrite Hw].
  eapply handled_with_trans; [|exact Hh]. apply handled_with_log.
Qed.


Lemma send_json_response_effect ref self status_code data w :
  let w' := (send_json_response self status_code data w).2 in
  handled_with ref w w' /\ wire w' = json_response status_code data :: wire w.
Proof.
  rewrite send_json_response_run. cbn. split; [|done].
  apply (handled_with_log ref w).
Qed.

Lemma do_POST_effect self w :
  exists status_code data,
    let w' := (do_POST self w).2 in
    (do_POST self w).1 = inr tt /\
    handled_with (ableton self) w w' /\
    wire w' = json_response status_code data :: wire w.
Proof.
  unfold do_POST, try_except.
  destruct (decoded (request self)) as [e|data]; run.
  - do 2 eexists. rewrite send_json_response_run. cbn.
    split; [done|]. split; [|done].
    rewrite <- app_assoc. by apply handled_with_quiet.
  - case_decide.
    + destruct (add_device_effect self data w) as [Hh Hw]. cbv zeta in Hh, Hw.
      destruct (add_device self data w) as [[e|v] w1]; cbn in Hh, Hw; run;
        rewrite send_json_response_run; cbn; do 2 eexists;
        (split; [done|]); rewrite Hw; (split; [|done]);
        (eapply handled_with_trans; [exact Hh|]).
      * rewrite <- app_assoc. by apply handled_with_quiet.
      * apply handled_with_log.
    + do 2 eexists. rewrite send_json_response_run. cbn.
      split; [done|]. split; [|done]. apply handled_with_log.
Qed.

Lemma do_GET_effect self w :
  exists status_code data,
    let w' := (do_GET self w).2 in
    (do_GET self w).1 = inr tt /\
    handled_with (ableton self) w w' /\
    wire w' = json_response status_code data :: wire w.
Proof.
  unfold do_GET. case_decide; do 2 eexists; rewrite send_json_response_run; cbn;
    (split; [done|]); (split; [|done]); apply handled_with_log.
Qed.

Lemma do_OPTIONS_effect self w :
  let w' := (do_OPTIONS self w).2 in
  (do_OPTIONS self w).1 = inr tt /\
  handled_with (ableton self) w w' /\
  wire w' = mkResponse 200 cors_headers true None :: wire w.
Proof.
  rewrite do_OPTIONS_run. cbn. split; [done|]. split; [|done].
  apply handled_with_log.
Qed.

(** One request, from the construction of its handler to its response. *)
Lemma AbletonHandler_init_effect req w :
  exists evs r,
    AbletonHandler_init req w =
      (inr tt, mkWorld (heap (after_request req w))
                       (trace w ++ EvConstruct (length (heap w)) "localhost" 9877 :: evs)
                       (r :: wire w)) /\
    length (heap (after_request req w)) = S (length (heap w)) /\
    constructed evs = [] /\
    Forall (fun x => x.1.1 = length (heap w)) (sends evs) /\
    match command req with
    | OPTIONS => r = mkResponse 200 cors_headers true None
    | GET | POST => exists status_code data, r = json_response status_code data
    end.
Proof.
  unfold after_request, AbletonHandler_init, new_AbletonConnection. run.
  set (w0 := mkWorld _ _ _).
  set (self := mkHandler (length (heap w)) req).
  assert (exists r,
    (handle_one_request self w0).1 = inr tt /\
    handled_with (length (heap w)) w0 (handle_one_request self w0).2 /\
    wire (handle_one_request self w0).2 = r :: wire w /\
    match command req with
    | OPTIONS => r = mkResponse 200 cors_headers true None
    | GET | POST => exists status_code data, r = json_response status_code data
    end) as (r & Hr & [Hh (evs & Ht & Hc & Hs)] & Hw & Hm).
  { unfold handle_one_request. cbn [request self].
    destruct (command req).
    - destruct (do_GET_effect self w0) as (c & dt & H1 & H2 & H3). eauto 10.
    - destruct (do_POST_effect self w0) as (c & dt & H1 & H2 & H3). eauto 10.
    - destruct (do_OPTIONS_effect self w0) as (H1 & H2 & H3). eauto 10. }
  exists evs, r.
  destruct (handle_one_request self w0) as [o w1]. cbn in *. subst o.
  split; [|split; [|done]].
  - destruct w1 as [h1 t1 wr1]. cbn in *. subst.
    by rewrite <- app_assoc.
  - rewrite Hh, length_app. cbn. lia.
Qed.

(** C7, as the code has it.  Every response to a GET or a POST carries
    [Content-type: application/json] and the three CORS headers; the response
    to an OPTIONS request carries the three CORS headers only, with status
    200, no [Content-Type] header and no body. *)
Theorem responses_carry_cors_headers req w :
  exists r,
    wire (after_request req w) = r :: wire w /\
    has_cors_headers r = true /\
    match command req with
    | GET | POST => has_header "Content-Type" "application/json" r = true
    | OPTIONS =>
        status r = 200 /\ headers r = cors_headers /\ body r = None /\
        has_header "Content-Type" "application/json" r = false
    end.
Proof.
  destruct (AbletonHandler_init_effect req w) as (evs & r & Hrun & _ & _ & _ & Hr).
  exists r. unfold after_request at 1. rewrite Hrun. cbn. split; [done|].
  destruct (command req).
  - by destruct Hr as (c & dt & ->).
  - by destruct Hr as (c & dt & ->).
  - by subst r.
Qed.

Lemma constructed_construct ref host port (t : list Event) :
  constructed (EvConstruct ref host port :: t) = ref :: constructed t.
Proof. reflexivity. Qed.

Lemma serve_forever_constructed reqs w :
  (serve_forever reqs w).1 = inr tt /\
  length (heap (serve_forever reqs w).2) = (length (heap w) + length reqs)%nat /\
  constructed (trace (serve_forever reqs w).2) =
    (constructed (trace w) ++ seq (length (heap w)) (length reqs))%list.
Proof.
  revert w. induction reqs as [|req rest IH]; intros w.
  - cbn. by rewrite Nat.add_0_r, app_nil_r.
  - cbn [serve_forever]. unfold try_except. run.
    destruct (AbletonHandler_init_effect req w)
      as (evs & r & Hrun & Hlen & Hc & _ & _).
    rewrite Hrun. cbn.
    match goal with
    | |- context [serve_forever rest ?w1] =>
        destruct (IH w1) as (H1 & H2 & H3)
    end.
    cbn [heap trace] in H2, H3.
    split; [done|]. split.
    + rewrite H2, Hlen. lia.
    + rewrite H3, Hlen, constructed_app, constructed_construct, Hc.
      by rewrite <- app_assoc.
Qed.

(** C5, as the code has it.  A connection object is constructed by the
    constructor of each handler, that is once for each request and not once
    for the process: the handler of a request first constructs a new object
    and then sends whatever it sends on that object; and a server that
    handles [n] requests has constructed [n] objects, one after the other,
    none of them before the first request. *)
Theorem connection_constructed_per_request :
  (forall req w,
     exists evs,
       trace (after_request req w) =
         (trace w ++ EvConstruct (length (heap w)) "localhost" 9877 :: evs)%list /\
       constructed evs = [] /\
       Forall (fun x => x.1.1 = length (heap w)) (sends evs)) /\
  (forall reqs w,
     constructed (trace (main (inr tt) reqs w).2) =
       (constructed (trace w) ++ seq (length (heap w)) (length reqs))%list).
Proof.
  split.
  - intros req w.
    destruct (AbletonHandler_init_effect req w)
      as (evs & r & Hrun & _ & Hc & Hs & _).
    exists evs. unfold after_request. by rewrite Hrun.
  - intros reqs w. unfold main, try_except. run.
    set (w0 := mkWorld _ _ _).
    destruct (serve_forever_constructed reqs w0) as (H1 & _ & H3).
    destruct (serve_forever reqs w0) as [o w1]. cbn in H1, H3. subst o.
    cbn. rewrite constructed_app, H3. subst w0. cbn [heap trace].
    rewrite !constructed_app. cbn. by rewrite !app_nil_r.
Qed.

End Properties.

(** ** The properties at concrete requests *)

Section Connected.

#[local] Existing Instance connected.

Lemma add_device_forwards_once_witness :
  eq_eight_body !! "track_index" = Some (PInt 2) /\
  PInt 2 <> PNone /\
  eq_eight_body !! "device_name" = Some (PStr "EQ Eight") /\
  "EQ Eight"%string <> EmptyString /\
  exists device_uri,
    resolve (PStr "EQ Eight") started
      = (inr device_uri, started) /\
    let args : gmap string pyval :=
      {[ "track_index" := PInt 2; "item_uri" := PStr device_uri ]} in
    let w' := after_request (post_add_device post_line eq_eight_body) started in
    sends (trace w') =
      (sends (trace started) ++ [(length (heap started), "load_browser_item", args)])%list /\
    forall v c',
      conn_send_command (conn_new "localhost" 9877) "load_browser_item" args
        = (inr v, c') ->
      wire w' =
        json_response 200
          (PDict {[ "success" := PBool true; "result" := v ]}) :: wire started.
Proof.
  assert (H1 : eq_eight_body !! "track_index" = Some (PInt 2)) by reflexivity.
  assert (H2 : PInt 2 <> PNone) by discriminate.
  assert (H3 : eq_eight_body !! "device_name" = Some (PStr "EQ Eight"))
    by reflexivity.
  assert (H4 : "EQ Eight"%string <> EmptyString) by discriminate.
  repeat (split; [assumption|]).
  exact (add_device_forwards_once (AC := connected)
           post_line eq_eight_body (PInt 2) "EQ Eight" started H1 H2 H3 H4).
Defined.

Lemma track_index_forwarded_unchecked_witness :
  custom_fx_body !! "track_index" = Some (PInt 0) /\
  PInt 0 <> PNone /\
  custom_fx_body !! "device_name" = Some (PStr "My Custom FX") /\
  "My Custom FX"%string <> EmptyString /\
  exists args,
    sends (trace (after_request (AC := connected)
                    (post_add_device post_line custom_fx_body) started)) =
      (sends (trace started) ++ [(length (heap started), "load_browser_item", args)])%list /\
    args !! "track_index" = Some (PInt 0).
Proof.
  assert (H1 : custom_fx_body !! "track_index" = Some (PInt 0)) by reflexivity.
  assert (H2 : PInt 0 <> PNone) by discriminate.
  assert (H3 : custom_fx_body !! "device_name" = Some (PStr "My Custom FX"))
    by reflexivity.
  assert (H4 : "My Custom FX"%string <> EmptyString) by discriminate.
  repeat (split; [assumption|]).
  exact (track_index_forwarded_unchecked (AC := connected)
           post_line custom_fx_body (PInt 0) "My Custom FX" started H1 H2 H3 H4).
Defined.

Lemma add_device_rejects_missing_fields_witness :
  no_track_body !! "track_index" = None /\
  let w' := after_request (AC := connected)
              (post_add_device post_line no_track_body) started in
  rejected_before_send started w' /\
  wire w' =
    json_response 500
      (PDict {[ "error" := PStr "track_index and device_name required" ]})
    :: wire started.
Proof.
  assert (H1 : no_track_body !! "track_index" = None) by reflexivity.
  split; [assumption|].
  exact (add_device_rejects_missing_fields (AC := connected)
           post_line no_track_body started (or_introl H1)).
Defined.

Lemma category_is_ignored_witness :
  (forall k : string, k <> "category" ->
     eq_eight_body !! k = <["category" := PStr "instruments"]> eq_eight_body !! k) /\
  AbletonHandler_init
    (post_add_device post_line eq_eight_body) started =
  AbletonHandler_init
    (post_add_device post_line
       (<["category" := PStr "instruments"]> eq_eight_body)) started.
Proof.
  assert (H : forall k : string, k <> "category" ->
     eq_eight_body !! k = <["category" := PStr "instruments"]> eq_eight_body !! k).
  { intros k Hk. symmetry. apply lookup_insert_ne. congruence. }
  split; [assumption|].
  exact (category_is_ignored (AC := connected)
           post_line eq_eight_body _ started H).
Defined.

Lemma resolve_never_fails_witness :
  "Reverb"%string <> EmptyString /\
  exists uri,
    resolve (PStr "Reverb") started
      = (inr uri, started) /\
    uri <> EmptyString.
Proof.
  assert (H : "Reverb"%string <> EmptyString) by discriminate.
  split; [assumption|].
  exact (resolve_never_fails "Reverb" started H).
Defined.

(** A [device_name] that is not a [str] passes the validation when it is
    truthy and then fails in the resolution, which calls [replace] on it: no
    command is sent and the response has status 500. *)
Lemma numeric_device_name_fails_in_resolution :
  let w' := after_request (AC := connected)
              (post_add_device post_line
                 {[ "track_index" := PInt 0; "device_name" := PInt 3 ]})
              started in
  sends (trace w') = [] /\
  wire w' =
    [json_response 500
       (PDict {[ "error" := PStr "'int' object has no attribute 'replace'" ]})].
Proof. by vm_compute. Qed.

(** *** Where the specification and the code part *)

(** C2 as stated fails on a name of one space: it is empty after trimming,
    yet the request is not rejected.  One command is sent, with the address
    built from the space, and the response has status 200. *)
Lemma blank_device_name_is_forwarded :
  let w' := after_request (AC := connected)
              (post_add_device post_line blank_name_body) started in
  (exists s, blank_name_body !! "device_name" = Some (PStr s) /\
             strip s = EmptyString) /\
  sends (trace w') =
    [(0%nat, "load_browser_item"%string,
      {[ "track_index" := PInt 0;
         "item_uri" := PStr "query:Audio%20Effects#Ableton#%20" ]})] /\
  map status (wire w') = [200] /\
  ~ rejected_before_send started w'.
Proof.
  cbv zeta. split; [by exists " "%string|].
  split; [by vm_compute|]. split; [by vm_compute|].
  intros [Hs _]. vm_compute in Hs. discriminate Hs.
Qed.

(** C5 as stated fails on two requests: two connection objects are
    constructed, the command of each request is sent on the object of that
    request, and each object has received one command. *)
Lemma two_requests_two_connections :
  let w' := (main (inr tt)
               [post_add_device post_line eq_eight_body;
                post_add_device post_line custom_fx_body] started).2 in
  constructed (trace w') = [0; 1]%nat /\
  map (fun x => x.1.1) (sends (trace w')) = [0; 1]%nat /\
  heap w' = [1; 1]%nat /\
  ~ single_connection (trace w').
Proof.
  cbv zeta. split; [by vm_compute|]. split; [by vm_compute|].
  split; [by vm_compute|].
  intros (ref & Hc & _). vm_compute in Hc. discriminate Hc.
Qed.

(** C7 as stated fails on an OPTIONS request: its response has the three
    CORS headers and no [Content-Type] header. *)
Lemma options_response_without_content_type :
  exists r,
    wire (after_request options_request started)
      = [r] /\
    has_cors_headers r = true /\
    has_header "Content-Type" "application/json" r = false /\
    has_json_and_cors_headers r = false.
Proof. eexists. split; [by vm_compute|]. by vm_compute. Qed.

End Connected.

Section Disconnected.

#[local] Existing Instance disconnected.

Lemma add_device_remote_error_no_retry_witness :
  custom_fx_body !! "track_index" = Some (PInt 0) /\
  PInt 0 <> PNone /\
  custom_fx_body !! "device_name" = Some (PStr "My Custom FX") /\
  "My Custom FX"%string <> EmptyString /\
  exists device_uri,
    resolve (PStr "My Custom FX") started
      = (inr device_uri, started) /\
    let args : gmap string pyval :=
      {[ "track_index" := PInt 0; "item_uri" := PStr device_uri ]} in
    let w' := after_request (post_add_device post_line custom_fx_body) started in
    forall e c',
      conn_send_command (conn_new "localhost" 9877) "load_browser_item" args
        = (inl e, c') ->
      wire w' =
        json_response 500 (PDict {[ "error" := PStr (exc_str e) ]})
        :: wire started /\
      sends (trace w') =
        (sends (trace started) ++ [(length (heap started), "load_browser_item", args)])%list.
Proof.
  assert (H1 : custom_fx_body !! "track_index" = Some (PInt 0)) by reflexivity.
  assert (H2 : PInt 0 <> PNone) by discriminate.
  assert (H3 : custom_fx_body !! "device_name" = Some (PStr "My Custom FX"))
    by reflexivity.
  assert (H4 : "My Custom FX"%string <> EmptyString) by discriminate.
  repeat (split; [assumption|]).
  exact (add_device_remote_error_no_retry (AC := disconnected)
           post_line custom_fx_body (PInt 0) "My Custom FX" started H1 H2 H3 H4).
Defined.

End Disconnected.

(** ** The handler on every request *)

Section Handler.

Context `{AC : AbletonConnection}.
Implicit Types (w : World) (self : AbletonHandler) (d : gmap string pyval).

#[local] Arguments resolve : simpl never.
#[local] Arguments fallback_rule : simpl never.
#[local] Arguments load_browser_item_args : simpl never.
#[local] Arguments add_device : simpl never.
#[local] Arguments do_POST : simpl never.
#[local] Arguments send_json_response : simpl never.
#[local] Arguments send_command : simpl never.

Ltac run := unfold mbind, mret, mthrow, M_bind, M_ret, M_throw; cbn.

Lemma new_events_app w w' (evs : list Event) :
  trace w' = (trace w ++ evs)%list -> new_events w w' = evs.
Proof. intros H. unfold new_events. rewrite H. apply drop_app_length. Qed.

Lemma resolve_not_str (v : pyval) w :
  is_str v = false ->
  resolve v w =
    (inl (Raised (if decide (type_name v = "list" \/ type_name v = "dict")
                  then "TypeError" else "AttributeError")
                 (not_str_message v)), w).
Proof.
  intros H. unfold resolve, device_uris_get, replace_spaces.
  destruct v; try done; run; reflexivity.
Qed.

Lemma add_device_dict_run self d w :
  let track_index := default PNone (d !! "track_index") in
  let device_name := default PNone (d !! "device_name") in
  add_device self (PDict d) w =
    if is_None track_index || negb (truthy device_name)
    then (inl (ValueError fields_required), w)
    else
      match resolve device_name w with
      | (inl e, _) => (inl e, w)
      | (inr device_uri, _) =>
          send_command (ableton self) "load_browser_item"
            (load_browser_item_args track_index device_uri)
            (mkWorld (heap w)
               (trace w ++
                  [EvLog INFO
                     "Loading device {device_name} with URI {device_uri} on track {track_index}"
                     [device_name; PStr device_uri; track_index]])
               (wire w))
      end.
Proof.
  cbv zeta. unfold add_device. cbn [data_get]. run.
  destruct (_ || _); [done|]. run.
  pose proof (resolve_pure (default PNone (d !! "device_name")) w) as Hp.
  destruct (resolve _ w) as [[e|uri] w1]; cbn in Hp; by subst w1.
Qed.

Lemma add_device_not_dict self data w :
  (forall d, data <> PDict d) ->
  add_device self data w = (inl (AttributeError data "get"), w).
Proof.
  intros H. unfold add_device, data_get.
  destruct data; try done. by destruct (H d).
Qed.

(** *** Each way of handling a request, in full *)

Lemma AbletonHandler_init_unfold req w :
  AbletonHandler_init req w =
    handle_one_request (mkHandler (length (heap w)) req)
      (mkWorld (heap w ++ [conn_new "localhost" 9877])
               (trace w ++ [EvConstruct (length (heap w)) "localhost" 9877])
               (wire w)).
Proof. reflexivity. Qed.

Lemma options_run rl p dec w :
  AbletonHandler_init (mkRequest OPTIONS rl p dec) w =
    (inr tt,
     mkWorld (heap w ++ [conn_new "localhost" 9877])
       (trace w ++
          [EvConstruct (length (heap w)) "localhost" 9877;
           EvLog INFO access_log_format [PStr rl; PInt 200; PStr "-"]])
       (mkResponse 200 cors_headers true None :: wire w)).
Proof.
  rewrite AbletonHandler_init_unfold. cbn [handle_one_request command request].
  rewrite do_OPTIONS_run. cbn. by rewrite <- app_assoc.
Qed.

Lemma get_run rl p dec w :
  AbletonHandler_init (mkRequest GET rl p dec) w =
    (inr tt,
     mkWorld (heap w ++ [conn_new "localhost" 9877])
       (trace w ++
          [EvConstruct (length (heap w)) "localhost" 9877;
           EvLog INFO access_log_format
             [PStr rl; PInt (if decide (p = "/health") then 200 else 404);
              PStr "-"]])
       ((if decide (p = "/health")
         then json_response 200 (PDict {[ "status" := PStr "ok" ]})
         else json_response 404 not_found) :: wire w)).
Proof.
  rewrite AbletonHandler_init_unfold. cbn [handle_one_request command request].
  unfold do_GET. cbn [path request].
  case_decide; rewrite send_json_response_run; cbn; by rewrite <- app_assoc.
Qed.

Lemma post_undecodable_run rl p e w :
  AbletonHandler_init (mkRequest POST rl p (inl e)) w =
    (inr tt,
     mkWorld (heap w ++ [conn_new "localhost" 9877])
       (trace w ++
          EvConstruct (length (heap w)) "localhost" 9877
          :: encode_log rl (inl e))
       (encode (inl e) :: wire w)).
Proof.
  rewrite AbletonHandler_init_unfold. cbn [handle_one_request command request].
  unfold do_POST, try_except. run.
  rewrite send_json_response_run. cbn. by rewrite <- !app_assoc.
Qed.

Lemma post_not_found_run rl p data w :
  p <> "/add_device" ->
  AbletonHandler_init (mkRequest POST rl p (inr data)) w =
    (inr tt,
     mkWorld (heap w ++ [conn_new "localhost" 9877])
       (trace w ++
          [EvConstruct (length (heap w)) "localhost" 9877;
           EvLog INFO access_log_format [PStr rl; PInt 404; PStr "-"]])
       (json_response 404 not_found :: wire w)).
Proof.
  intros Hp.
  rewrite AbletonHandler_init_unfold. cbn [handle_one_request command request].
  unfold do_POST, try_except. run. case_decide; [done|].
  rewrite send_json_response_run. cbn. by rewrite <- !app_assoc.
Qed.

Lemma post_dispatch_run rl data r w1 w :
  add_device (mkHandler (length (heap w)) (mkRequest POST rl "/add_device" (inr data)))
    data
    (mkWorld (heap w ++ [conn_new "localhost" 9877])
             (trace w ++ [EvConstruct (length (heap w)) "localhost" 9877])
             (wire w)) = (r, w1) ->
  AbletonHandler_init (mkRequest POST rl "/add_device" (inr data)) w =
    (inr tt,
     mkWorld (heap w1) (trace w1 ++ encode_log rl r) (encode r :: wire w1)).
Proof.
  intros Hr.
  rewrite AbletonHandler_init_unfold. cbn [handle_one_request command request].
  unfold do_POST, try_except. run. case_decide; [|done]. rewrite Hr.
  destruct r as [e|v]; run; rewrite send_json_response_run; cbn;
    by rewrite <- ?app_assoc.
Qed.

(** A POST to [/add_device] whose handling raises before any command. *)
Lemma post_raise_run rl data e w :
  (forall self w0, add_device self data w0 = (inl e, w0)) ->
  AbletonHandler_init (mkRequest POST rl "/add_device" (inr data)) w =
    (inr tt,
     mkWorld (heap w ++ [conn_new "localhost" 9877])
       (trace w ++
          EvConstruct (length (heap w)) "localhost" 9877
          :: encode_log rl (inl e))
       (encode (inl e) :: wire w)).
Proof.
  intros H. erewrite post_dispatch_run by apply H.
  cbn. by rewrite <- !app_assoc.
Qed.

Lemma default_PNone_Some d (k : string) (v : pyval) :
  default PNone (d !! k) = v -> v <> PNone -> d !! k = Some v.
Proof. destruct (d !! k); cbn; congruence. Qed.

Lemma truthy_str (v : pyval) :
  truthy v = true -> is_str v = true ->
  exists s, v = PStr s /\ s <> EmptyString.
Proof. destruct v as [| | | |[|c s]| |]; try done. intros _ _. by eexists. Qed.

Lemma truthy_not_None (v : pyval) : truthy v = true -> v <> PNone.
Proof. by destruct v. Qed.

Lemma is_None_false (v : pyval) : is_None v = false -> v <> PNone.
Proof. by destruct v. Qed.

Lemma add_device_not_str self d w :
  is_None (default PNone (d !! "track_index")) = false ->
  truthy (default PNone (d !! "device_name")) = true ->
  is_str (default PNone (d !! "device_name")) = false ->
  add_device self (PDict d) w =
    (inl (Raised
            (if decide (type_name (default PNone (d !! "device_name")) = "list"
                        \/ type_name (default PNone (d !! "device_name")) = "dict")
             then "TypeError" else "AttributeError")
            (not_str_message (default PNone (d !! "device_name")))), w).
Proof.
  intros Hti Hdn Hs. rewrite add_device_dict_run. cbv zeta.
  rewrite Hti, Hdn. cbn [orb negb]. by rewrite resolve_not_str.
Qed.

(** The three ways of handling a request.  What is written, logged and sent
    depends on the request only; the state of the process gives the index of
    the new connection object and nothing else. *)
Lemma request_frame req :
  exists (c : conn) (evs : nat -> list Event) (r : Response),
    (forall w,
       AbletonHandler_init req w =
         (inr tt,
          mkWorld (heap w ++ [c])
            (trace w ++
               EvConstruct (length (heap w)) "localhost" 9877
               :: evs (length (heap w)))
            (r :: wire w))) /\
    ((c = conn_new "localhost" 9877 /\
      evs = (fun _ =>
               [EvLog INFO access_log_format
                  [PStr (requestline req); PInt (status r); PStr "-"]]) /\
      (r = mkResponse 200 cors_headers true None /\ command req = OPTIONS \/
       r = json_response 200 (PDict {[ "status" := PStr "ok" ]}) /\
         command req = GET \/
       r = json_response 404 not_found /\ command req <> OPTIONS))
     \/
     (exists e,
        command req = POST /\
        c = conn_new "localhost" 9877 /\
        evs = (fun _ => encode_log (requestline req) (inl e)) /\
        r = encode (inl e))
     \/
     (exists device_name track_index device_uri,
        let args := load_browser_item_args track_index device_uri in
        let rc := conn_send_command (conn_new "localhost" 9877)
                    "load_browser_item" args in
        command req = POST /\
        c = rc.2 /\
        evs = (fun n =>
                 EvLog INFO
                   "Loading device {device_name} with URI {device_uri} on track {track_index}"
                   [device_name; PStr device_uri; track_index]
                 :: EvSend n "load_browser_item" args
                 :: encode_log (requestline req) rc.1) /\
        r = encode rc.1)).
Proof.
  destruct req as [[| |] rl p dec]; cbn [requestline command].
  - (* GET *)
    pose proof (get_run rl p dec) as H.
    destruct (decide (p = "/health")).
    + eexists _, (fun _ => _), _. split; [exact H|]. left. by eauto 10.
    + eexists _, (fun _ => _), _. split; [exact H|]. left.
      split; [done|]. split; [done|]. by right; right.
  - (* POST *)
    destruct dec as [e|data].
    { eexists _, (fun _ => _), _. split; [apply post_undecodable_run|].
      right; left. by exists e. }
    destruct (decide (p = "/add_device")) as [->|Hp].
    2: { eexists _, (fun _ => _), _. split; [intros w; by apply post_not_found_run|].
         left. split; [done|]. split; [done|]. by right; right. }
    assert ((exists d, data = PDict d) \/ (forall d, data <> PDict d))
      as [[d ->]|Hnd] by (destruct data; eauto; right; congruence).
    2: { eexists _, (fun _ => _), _.
         split; [intros w; apply post_raise_run; intros; by apply add_device_not_dict|].
         right; left. by eexists. }
    destruct (is_None (default PNone (d !! "track_index"))) eqn:Hti.
    { eexists _, (fun _ => _), _.
      split; [intros w; apply post_raise_run; intros; apply add_device_invalid;
              by rewrite Hti|].
      right; left. by eexists. }
    destruct (truthy (default PNone (d !! "device_name"))) eqn:Hdn.
    2: { eexists _, (fun _ => _), _.
         split; [intros w; apply post_raise_run; intros; apply add_device_invalid;
                 by rewrite Hti, Hdn|].
         right; left. by eexists. }
    destruct (is_str (default PNone (d !! "device_name"))) eqn:Hs.
    2: { eexists _, (fun _ => _), _.
         split; [intros w; apply post_raise_run; intros; by apply add_device_not_str|].
         right; left. by eexists. }
    destruct (truthy_str _ Hdn Hs) as (s & Hv & Hne).
    apply is_None_false in Hti.
    assert (H1 : d !! "track_index" = Some (default PNone (d !! "track_index")))
      by (by apply default_PNone_Some).
    assert (H3 : d !! "device_name" = Some (PStr s))
      by (by apply default_PNone_Some).
    pose proof (fun w => post_valid_run rl d _ s w H1 Hti H3 Hne) as H.
    cbv zeta in H.
    set (ti := default PNone (d !! "track_index")) in *.
    set (args := load_browser_item_args ti (fallback_rule s)) in *.
    set (rc := conn_send_command (conn_new "localhost" 9877)
                 "load_browser_item" args) in *.
    exists rc.2,
      (fun n =>
         EvLog INFO
           "Loading device {device_name} with URI {device_uri} on track {track_index}"
           [PStr s; PStr (fallback_rule s); ti]
         :: EvSend n "load_browser_item" args :: encode_log rl rc.1),
      (encode rc.1).
    split; [exact H|].
    right; right. by exists (PStr s), ti, (fallback_rule s).
  - (* OPTIONS *)
    eexists _, (fun _ => _), _. split; [apply options_run|]. left. by eauto 10.
Qed.

(** *** The endpoints, request by request *)

Lemma new_events_cons w (h : list conn) (evs : list Event) (wr : list Response) :
  new_events w (mkWorld h (trace w ++ evs) wr) = evs.
Proof. by apply new_events_app. Qed.

Lemma sends_construct ref host port (t : list Event) :
  sends (EvConstruct ref host port :: t) = sends t.
Proof. reflexivity. Qed.

Lemma errors_logged_encode_log rl (r : PyExc + pyval) :
  errors_logged (encode_log rl r) =
    match r with inl e => [[PStr (exc_str e)]] | inr _ => [] end.
Proof. by destruct r. Qed.

(** X1.  A GET is answered 200 with [{"status": "ok"}] when its path is
    exactly [/health] and 404 with the not-found error on any other path.
    It sends no command and logs no error, and the connection object that
    its handler has constructed is left as constructed: the answer of
    [/health] does not depend on the connection. *)
Theorem get_answers_without_the_connection rl p dec w :
  let w' := after_request (mkRequest GET rl p dec) w in
  wire w' =
    (if decide (p = "/health")
     then json_response 200 (PDict {[ "status" := PStr "ok" ]})
     else json_response 404 not_found) :: wire w /\
  sends (new_events w w') = [] /\
  errors_logged (new_events w w') = [] /\
  heap w' = (heap w ++ [conn_new "localhost" 9877])%list.
Proof.
  cbv zeta. unfold after_request. rewrite get_run. cbn [snd wire heap].
  by rewrite new_events_cons.
Qed.

(** X2.  A POST whose body can be decoded and whose path is not
    [/add_device] is answered 404 with the not-found error; no command is
    sent and no error is logged, whatever the body holds. *)
Theorem post_to_unknown_path_is_not_found rl p data w :
  p <> "/add_device" ->
  let w' := after_request (mkRequest POST rl p (inr data)) w in
  wire w' = json_response 404 not_found :: wire w /\
  sends (new_events w w') = [] /\
  errors_logged (new_events w w') = [].
Proof.
  intros Hp. cbv zeta. unfold after_request. rewrite post_not_found_run by done.
  cbn [snd wire]. by rewrite new_events_cons.
Qed.

(** X3.  The body of a POST is read and decoded before its path is looked
    at: when that fails with an error [e], the answer is 500 with the message
    of [e] on every path, [/add_device] or not; the error is logged and no
    command is sent. *)
Theorem post_undecodable_body_is_500_on_every_path rl p e w :
  let w' := after_request (mkRequest POST rl p (inl e)) w in
  wire w' = json_response 500 (error_payload (exc_str e)) :: wire w /\
  sends (new_events w w') = [] /\
  errors_logged (new_events w w') = [[PStr (exc_str e)]].
Proof.
  cbv zeta. unfold after_request. rewrite post_undecodable_run.
  cbn [snd wire]. by rewrite new_events_cons.
Qed.

(** X4.  A POST to [/add_device] whose body decodes to something that is not
    an object (a list, a string, a number, a boolean or null) is answered 500
    with the message of the failed lookup of the method [get]; no command is
    sent. *)
Theorem post_body_not_an_object rl data w :
  (forall d, data <> PDict d) ->
  let w' := after_request (mkRequest POST rl "/add_device" (inr data)) w in
  wire w' =
    json_response 500
      (error_payload
         ("'" ++ type_name data ++ "' object has no attribute 'get'"))
    :: wire w /\
  sends (new_events w w') = [].
Proof.
  intros H. cbv zeta. unfold after_request.
  rewrite (post_raise_run rl data (AttributeError data "get"))
    by (intros; by apply add_device_not_dict).
  cbn [snd wire]. by rewrite new_events_cons.
Qed.

(** X6.  A [device_name] that is truthy and not a [str] passes the
    validation and fails in the resolution: a list or an object cannot be
    hashed for the lookup in the table, a number or [true] has no method
    [replace].  The answer is 500 with that message and no command is sent. *)
Theorem device_name_not_a_string_fails_in_resolution rl d w :
  is_None (default PNone (d !! "track_index")) = false ->
  truthy (default PNone (d !! "device_name")) = true ->
  is_str (default PNone (d !! "device_name")) = false ->
  let w' := after_request (post_add_device rl d) w in
  wire w' =
    json_response 500
      (error_payload (not_str_message (default PNone (d !! "device_name"))))
    :: wire w /\
  sends (new_events w w') = [].
Proof.
  intros Hti Hdn Hs. cbv zeta. unfold after_request, post_add_device.
  erewrite post_raise_run by (intros; by apply add_device_not_str).
  cbn [snd wire]. by rewrite new_events_cons.
Qed.

(** X7.  The validation of [device_name] is its truth value: a name that is
    falsy (null, [false], the number zero, the empty string, an empty list
    or an empty object) is rejected with the validation message even when
    [track_index] is given, and no command is sent. *)
Theorem falsy_device_name_is_rejected rl d w :
  truthy (default PNone (d !! "device_name")) = false ->
  let w' := after_request (post_add_device rl d) w in
  wire w' = json_response 500 (error_payload fields_required) :: wire w /\
  sends (new_events w w') = [] /\
  errors_logged (new_events w w') = [[PStr fields_required]].
Proof.
  intros Hdn. cbv zeta. unfold after_request.
  rewrite post_invalid_run by (rewrite Hdn; apply orb_true_r).
  cbn [snd wire]. by rewrite new_events_cons.
Qed.

(** *** What holds of every request *)

(** The state after a request, by [request_frame]. *)
Ltac frame req w c evs r Hshape :=
  let Hrun := fresh "Hrun" in
  destruct (request_frame req) as (c & evs & r & Hrun & Hshape);
  unfold after_request; rewrite ?Hrun;
  cbn [fst snd heap wire trace]; rewrite ?new_events_cons.

(** The three cases of [request_frame]. *)
Ltac frame_cases Hshape :=
  let e := fresh "e" in
  let H := fresh "Hr" in
  destruct Hshape as
    [(-> & -> & H) | [(e & ? & -> & -> & ->) | (dn & ti & uri & Hsent)]];
  [ destruct H as [[-> ?] | [[-> ?] | [-> ?]]]
  | idtac
  | cbv zeta in Hsent; destruct Hsent as (? & -> & -> & ->) ].

Lemma dom_load_browser_item_args (track_index : pyval) (device_uri : string) :
  dom (load_browser_item_args track_index device_uri)
    = ({[ "track_index"; "item_uri" ]} : gset string).
Proof.
  unfold load_browser_item_args. by rewrite dom_insert_L, dom_singleton_L.
Qed.

(** X8.  No request makes the handler send more than one command, and a
    command that is sent is always [load_browser_item], on the connection
    object of the request, with exactly the two arguments [track_index] and
    [item_uri].  Only a POST sends one. *)
Theorem at_most_one_command_per_request req w :
  let evs := new_events w (after_request req w) in
  (length (sends evs) <= 1)%nat /\
  Forall (fun x => x.1.1 = length (heap w) /\
                   x.1.2 = "load_browser_item" /\
                   dom x.2 = ({[ "track_index"; "item_uri" ]} : gset string))
         (sends evs) /\
  (command req = POST \/ sends evs = []).
Proof.
  cbv zeta. frame req w c evs r Hshape. frame_cases Hshape.
  - cbn. split; [lia|]. split; [constructor|by right].
  - cbn. split; [lia|]. split; [constructor|by right].
  - cbn. split; [lia|]. split; [constructor|by right].
  - rewrite sends_construct, sends_encode_log. cbn.
    split; [lia|]. split; [constructor|by right].
  - rewrite sends_construct. cbn. rewrite sends_encode_log. cbn.
    split; [lia|]. split; [|by left].
    constructor; [|constructor]. cbn.
    split; [done|]. split; [done|]. apply dom_load_browser_item_args.
Qed.



(** X14.  An error is logged exactly when the answer is 500, and then the
    record logged and the payload of the response carry the same message;
    a response of another status comes with no error record. *)
Theorem errors_are_logged_with_the_response req w :
  let evs := new_events w (after_request req w) in
  exists r,
    wire (after_request req w) = r :: wire w /\
    (status r = 500 /\
       (exists m, body r = Some (error_payload m) /\
                  errors_logged evs = [[PStr m]])
     \/ status r <> 500 /\ errors_logged evs = []).
Proof.
  cbv zeta. frame req w c evs r Hshape. exists r. split; [done|].
  frame_cases Hshape.
  - by right.
  - by right.
  - by right.
  - left. split; [done|]. eexists. by split.
  - cbn. destruct (conn_send_command _ _ _).1 as [e|v]; cbn.
    + left. split; [done|]. exists (exc_str e). by split.
    + by right.
Qed.

Lemma access_logged_encode_log rl (r : PyExc + pyval) :
  access_logged (encode_log rl r) = [[PStr rl; PInt (status (encode r)); PStr "-"]].
Proof. by destruct r. Qed.

(** X15.  Every response is logged once through [log_message]: one record
    of the access log is written for a request, with the request line and
    the status of the response. *)
Theorem every_response_is_logged_once req w :
  exists r,
    wire (after_request req w) = r :: wire w /\
    access_logged (new_events w (after_request req w)) =
      [[PStr (requestline req); PInt (status r); PStr "-"]].
Proof.
  frame req w c evs r Hshape. exists r. split; [done|].
  frame_cases Hshape; try done.
  change (access_logged (encode_log (requestline req)
            (conn_send_command (conn_new "localhost" 9877) "load_browser_item"
               (load_browser_item_args ti uri)).1) = 
          [[PStr (requestline req);
            PInt (status (encode
              (conn_send_command (conn_new "localhost" 9877) "load_browser_item"
                 (load_browser_item_args ti uri)).1));
            PStr "-"]]).
  apply access_logged_encode_log.
Qed.

(** X16.  A request leaves the connection objects of earlier requests as
    they are: its handler adds one object to the store, which it leaves as
    constructed when it sends nothing and in the state after its one command
    otherwise.  Nothing is ever sent on an object of an earlier request. *)
Theorem earlier_connections_are_untouched req w :
  let evs := new_events w (after_request req w) in
  exists c,
    heap (after_request req w) = (heap w ++ [c])%list /\
    (sends evs = [] /\ c = conn_new "localhost" 9877
     \/ exists args,
          sends evs = [(length (heap w), "load_browser_item"%string, args)] /\
          c = (conn_send_command (conn_new "localhost" 9877)
                 "load_browser_item" args).2).
Proof.
  cbv zeta. frame req w c evs r Hshape. exists c. split; [done|].
  frame_cases Hshape.
  - by left.
  - by left.
  - by left.
  - left. by rewrite sends_construct, sends_encode_log.
  - right. eexists. rewrite sends_construct. cbn.
    by rewrite sends_encode_log.
Qed.

(** X17.  Success is not reported without the remote call: when the answer
    to a POST has status 200, one command has been sent, it has returned a
    value, and the payload of the response holds that value as [result]. *)
Theorem success_only_after_the_command_returned rl p dec w r :
  wire (after_request (mkRequest POST rl p dec) w) = r :: wire w ->
  status r = 200 ->
  exists args v,
    sends (new_events w (after_request (mkRequest POST rl p dec) w)) =
      [(length (heap w), "load_browser_item"%string, args)] /\
    (conn_send_command (conn_new "localhost" 9877) "load_browser_item" args).1
      = inr v /\
    body r = Some (PDict {[ "success" := PBool true; "result" := v ]}).
Proof.
  revert r. frame (mkRequest POST rl p dec) w c evs r' Hshape.
  intros r [= <-] Hst.
  frame_cases Hshape; try done.
  destruct (conn_send_command _ _ _).1 as [e|v] eqn:E; [done|].
  exists (load_browser_item_args ti uri), v.
  rewrite sends_construct. by repeat split.
Qed.

(** X5.  A POST to [/add_device] with an object as body sends a command
    exactly when [track_index] is not null and [device_name] is a non-empty
    string; in every other case nothing is sent. *)
Theorem command_sent_exactly_when_valid rl d w :
  let track_index := default PNone (d !! "track_index") in
  let device_name := default PNone (d !! "device_name") in
  length (sends (new_events w (after_request (post_add_device rl d) w))) =
    if negb (is_None track_index) && truthy device_name && is_str device_name
    then 1%nat else 0%nat.
Proof.
  cbv zeta. unfold after_request.
  destruct (is_None (default PNone (d !! "track_index"))) eqn:Hti.
  { rewrite post_invalid_run by (by rewrite Hti). cbn [snd].
    by rewrite new_events_cons, sends_construct, sends_encode_log. }
  destruct (truthy (default PNone (d !! "device_name"))) eqn:Hdn.
  2: { rewrite post_invalid_run by (by rewrite Hti, Hdn). cbn [snd].
       by rewrite new_events_cons, sends_construct, sends_encode_log. }
  destruct (is_str (default PNone (d !! "device_name"))) eqn:Hs.
  2: { unfold post_add_device.
       erewrite post_raise_run by (intros; by apply add_device_not_str).
       cbn [snd].
       by rewrite new_events_cons, sends_construct, sends_encode_log. }
  destruct (truthy_str _ Hdn Hs) as (s & Hv & Hne).
  apply is_None_false in Hti.
  rewrite (post_valid_run rl d (default PNone (d !! "track_index")) s)
    by (try done; by apply default_PNone_Some).
  cbn [snd]. rewrite new_events_cons, sends_construct. cbn.
  by rewrite sends_encode_log.
Qed.

(** *** The address *)

Lemma has_space_cons (c : ascii) (s : string) :
  has_space (String c s) = Ascii.eqb " " c || has_space s.
Proof. reflexivity. Qed.

Lemma has_space_app (a b : string) :
  has_space (a ++ b) = has_space a || has_space b.
Proof.
  induction a as [|c a IH]; [done|].
  change (String c a ++ b)%string with (String c (a ++ b)).
  by rewrite !has_space_cons, IH, orb_assoc.
Qed.

Lemma has_space_str_replace (s : string) :
  has_space (str_replace " " "%20" s) = false.
Proof.
  induction s as [|c s IH]; [done|]. cbn [str_replace].
  destruct (Ascii.eqb c " ") eqn:E.
  - by rewrite has_space_app, IH.
  - by rewrite has_space_cons, Ascii.eqb_sym, E, IH.
Qed.

Lemma str_replace_without_space (s : string) :
  has_space s = false -> str_replace " " "%20" s = s.
Proof.
  induction s as [|c s IH]; [done|]. rewrite has_space_cons, Ascii.eqb_sym.
  intros [E H]%orb_false_elim. cbn [str_replace].
  rewrite E. f_equal. by apply IH.
Qed.

(** X10.  The address of a name never contains a space, whatever the name:
    every space of the name has become [%20], and the template has none. *)
Theorem resolved_address_has_no_space (s : string) w :
  exists device_uri,
    resolve (PStr s) w = (inr device_uri, w) /\ has_space device_uri = false.
Proof.
  exists (fallback_rule s). split; [apply resolve_str|].
  unfold fallback_rule. by rewrite has_space_app, has_space_str_replace.
Qed.

(** X11.  The space is the only character that the resolution encodes: a
    name without a space is appended to the template as it is, whatever
    other characters it has. *)
Theorem name_without_space_is_kept s w :
  has_space s = false ->
  resolve (PStr s) w = (inr ("query:Audio%20Effects#Ableton#" ++ s)%string, w).
Proof.
  intros H. rewrite resolve_str. unfold fallback_rule.
  by rewrite str_replace_without_space.
Qed.

(** *** The server *)



End Handler.

(** ** The handler at concrete requests *)

Section HandlerConnected.

#[local] Existing Instance connected.

Lemma post_to_unknown_path_is_not_found_witness :
  "/remove_device"%string <> "/add_device"%string /\
  let w' := after_request
              (mkRequest POST "POST /remove_device HTTP/1.1" "/remove_device"
                 (inr (PDict eq_eight_body))) started in
  wire w' = json_response 404 not_found :: wire started /\
  sends (new_events started w') = [] /\
  errors_logged (new_events started w') = [].
Proof.
  assert (H : "/remove_device"%string <> "/add_device"%string) by discriminate.
  split; [assumption|].
  exact (post_to_unknown_path_is_not_found (AC := connected)
           "POST /remove_device HTTP/1.1" "/remove_device"
           (PDict eq_eight_body) started H).
Defined.

Lemma post_body_not_an_object_witness :
  (forall d, PList [PInt 1] <> PDict d) /\
  let w' := after_request
              (mkRequest POST post_line "/add_device" (inr (PList [PInt 1])))
              started in
  wire w' =
    json_response 500
      (error_payload
         ("'" ++ type_name (PList [PInt 1]) ++ "' object has no attribute 'get'"))
    :: wire started /\
  sends (new_events started w') = [].
Proof.
  assert (H : forall d, PList [PInt 1] <> PDict d) by (intros d; discriminate).
  split; [assumption|].
  exact (post_body_not_an_object (AC := connected)
           post_line (PList [PInt 1]) started H).
Defined.

Lemma device_name_not_a_string_fails_in_resolution_witness :
  let d : gmap string pyval :=
    {[ "track_index" := PInt 0; "device_name" := PInt 3 ]} in
  is_None (default PNone (d !! "track_index")) = false /\
  truthy (default PNone (d !! "device_name")) = true /\
  is_str (default PNone (d !! "device_name")) = false /\
  let w' := after_request (post_add_device post_line d) started in
  wire w' =
    json_response 500
      (error_payload (not_str_message (default PNone (d !! "device_name"))))
    :: wire started /\
  sends (new_events started w') = [].
Proof.
  intros d.
  assert (H1 : is_None (default PNone (d !! "track_index")) = false)
    by reflexivity.
  assert (H2 : truthy (default PNone (d !! "device_name")) = true)
    by reflexivity.
  assert (H3 : is_str (default PNone (d !! "device_name")) = false)
    by reflexivity.
  repeat (split; [assumption|]).
  exact (device_name_not_a_string_fails_in_resolution (AC := connected)
           post_line d started H1 H2 H3).
Defined.

Lemma falsy_device_name_is_rejected_witness :
  let d : gmap string pyval :=
    {[ "track_index" := PInt 0; "device_name" := PInt 0 ]} in
  truthy (default PNone (d !! "device_name")) = false /\
  let w' := after_request (post_add_device post_line d) started in
  wire w' = json_response 500 (error_payload fields_required) :: wire started /\
  sends (new_events started w') = [] /\
  errors_logged (new_events started w') = [[PStr fields_required]].
Proof.
  intros d.
  assert (H : truthy (default PNone (d !! "device_name")) = false)
    by reflexivity.
  split; [assumption|].
  exact (falsy_device_name_is_rejected (AC := connected) post_line d started H).
Defined.

Lemma name_without_space_is_kept_witness :
  has_space "A#B%C" = false /\
  resolve (PStr "A#B%C") started =
    (inr ("query:Audio%20Effects#Ableton#" ++ "A#B%C")%string, started).
Proof.
  assert (H : has_space "A#B%C" = false) by reflexivity.
  split; [assumption|].
  exact (name_without_space_is_kept (AC := connected) "A#B%C" started H).
Defined.

Lemma success_only_after_the_command_returned_witness :
  let req := mkRequest POST post_line "/add_device" (inr (PDict eq_eight_body)) in
  let r := json_response 200
             (PDict {[ "success" := PBool true; "result" := loaded ]}) in
  wire (after_request req started) = r :: wire started /\
  status r = 200 /\
  exists args v,
    sends (new_events started (after_request req started)) =
      [(length (heap started), "load_browser_item"%string, args)] /\
    (conn_send_command (conn_new "localhost" 9877) "load_browser_item" args).1
      = inr v /\
    body r = Some (PDict {[ "success" := PBool true; "result" := v ]}).
Proof.
  intros req r.
  assert (H1 : wire (after_request req started) = r :: wire started)
    by (by vm_compute).
  assert (H2 : status r = 200) by reflexivity.
  repeat (split; [assumption|]).
  exact (success_only_after_the_command_returned (AC := connected)
           post_line "/add_device" (inr (PDict eq_eight_body)) started r H1 H2).
Defined.

End HandlerConnected.
